(** * yews.datasets: the package aggregator [yews/datasets/__init__.py]

    The file is a module body of fifteen statements: thirteen
    [from .m import n], one [from .utils import *] and the assignment of a
    list display to [__all__].  It is embedded as a program of a small
    statement language, run by an interpreter of the import system: the
    module cache [sys.modules], the namespace of the package as a shared
    dictionary in that cache, and the exceptions an import can raise.

    The sibling modules [base], [packaged_datasets] and [utils] are not part
    of the file; loading one of them is an oracle [load], a parameter of
    every definition, which either raises or yields the namespace of the
    loaded module. *)

From Stdlib Require Import Ascii.
From stdpp Require Import strings gmap list fin_maps.

Open Scope string_scope.
Open Scope list_scope.

(** ** Values, exceptions, statements *)

(** Python objects as far as the module body tells them apart. *)
Inductive value : Type :=
  | PyNone                      (* None *)
  | Obj (ref : positive)        (* a class or function of a sibling, by identity *)
  | StrList (l : list string)   (* a list of str *)
  | Module (m : string)         (* the submodule object yews.datasets.m *)
  | Internal (attr : string).   (* what the import system stores under attr *)

#[global] Instance value_eq_dec : EqDecision value.
Proof. solve_decision. Defined.

Inductive modname : Type :=
  | Package                     (* yews.datasets *)
  | Submodule (m : string).     (* yews.datasets.m *)

#[global] Instance modname_eq_dec : EqDecision modname.
Proof. solve_decision. Defined.

Inductive exn : Type :=
  | ModuleNotFoundError (m : modname)
  | ImportError (m : modname) (n : string)     (* cannot import name n from m *)
  | AttributeError (m : modname) (n : string)  (* module m has no attribute n *)
  | TypeError (m : modname)                    (* __all__ of m is no sequence of str *)
  | OtherError (msg : string).                 (* anything else a sibling raises *)

#[global] Instance exn_eq_dec : EqDecision exn.
Proof. solve_decision. Defined.

(** A list display: each element is a run of adjacent string literals, which
    the compiler concatenates (['a' 'b'] is the one string ['ab']). *)
Definition display : Type := list (list string).

Inductive stmt : Type :=
  | FromImport (m n : string)               (* from .m import n *)
  | FromImportStar (m : string)             (* from .m import * *)
  | AssignList (x : string) (d : display).  (* x = [ ... ] *)

Definition literal (run : list string) : string := foldr String.app "" run.

Definition eval_display (d : display) : list string := literal <$> d.

(** ** The source *)

(** Lines 1-14. *)
Definition imports : list stmt :=
  [ FromImport "base" "BaseDataset";
    FromImport "base" "Dataset";
    FromImport "base" "DirDataset";
    FromImport "base" "FileDataset";
    FromImport "base" "is_dataset";
    FromImport "base" "PathDataset";
    FromImport "packaged_datasets" "Mariana";
    FromImport "packaged_datasets" "PackagedDataset";
    FromImport "packaged_datasets" "SCSN";
    FromImport "packaged_datasets" "Wenchuan";
    FromImport "packaged_datasets" "SCSN_polarity";
    FromImport "packaged_datasets" "Taiwan_focal_mechanism";
    FromImport "packaged_datasets" "Taiwan20092010";
    FromImportStar "utils" ].

(** Lines 16-29: the display assigned to [__all__].  The last two literals
    have no comma between them. *)
Definition all_display : display :=
  [ ["BaseDataset"];
    ["PathDataset"];
    ["FileDataset"];
    ["DirDataset"];
    ["Dataset"];
    ["PackagedDataset"];
    ["Wenchuan"];
    ["Mariana"];
    ["SCSN"];
    ["SCSN_polarity"];
    ["Taiwan_focal_mechanism"; "Taiwan20092010"] ].

(** The module body with the display of [__all__] left open, and the file
    itself. *)
Definition package_body (d : display) : list stmt :=
  imports ++ [AssignList "__all__" d].

Definition init_py : list stmt := package_body all_display.

(** The value the file binds to [__all__]. *)
Definition all_names : list string := eval_display all_display.

(** The display with the comma restored, as the specification's example
    scenario supposes it; not the source. *)
Definition corrected_display : display :=
  [ ["BaseDataset"];
    ["PathDataset"];
    ["FileDataset"];
    ["DirDataset"];
    ["Dataset"];
    ["PackagedDataset"];
    ["Wenchuan"];
    ["Mariana"];
    ["SCSN"];
    ["SCSN_polarity"];
    ["Taiwan_focal_mechanism"];
    ["Taiwan20092010"] ].

(** The symbols the body imports by name, with their source modules, and the
    sibling modules it refers to. *)
Definition named_of (s : stmt) : list (string * string) :=
  match s with
  | FromImport m n => [(m, n)]
  | _ => []
  end.

Definition module_of (s : stmt) : list string :=
  match s with
  | FromImport m _ | FromImportStar m => [m]
  | AssignList _ _ => []
  end.

Definition named_symbols : list (string * string) := imports ≫= named_of.

Definition referenced_modules : list string := remove_dups (imports ≫= module_of).

(** A run of [from .m import n] statements. *)
Definition from_imports (l : list (string * string)) : list stmt :=
  (fun mn => FromImport mn.1 mn.2) <$> l.

(** The attributes a package module has before its body runs: the import
    system sets them when it creates the module.  The file has no docstring,
    so [__doc__] is None; the others (the name of the module and of its
    package, loader, spec, search path, file names, builtins) are objects of
    the import system, kept apart by the attribute they are made for. *)
Definition module_attributes : list string :=
  [ "__name__"; "__doc__"; "__package__"; "__loader__"; "__spec__";
    "__path__"; "__file__"; "__cached__"; "__builtins__" ].

Definition module_dict : gmap string value :=
  list_to_map
    ((fun a => (a, if decide (a = "__doc__") then PyNone else Internal a))
       <$> module_attributes).

(** ** The process state *)

(** [sys.modules], restricted to the package and its submodules, and a log
    of the module bodies the process has started to execute. *)
Record process : Type := mkProcess {
  package : option (gmap string value);        (* sys.modules['yews.datasets'] *)
  submodules : gmap string (gmap string value);(* sys.modules['yews.datasets.' + m] *)
  runs : list modname
}.

Definition fresh : process := mkProcess None ∅ [].

(** The dictionary of the package module: the globals of its body. *)
Definition globals (p : process) : gmap string value := default ∅ (package p).

Definition set_globals (g : gmap string value) (p : process) : process :=
  mkProcess (Some g) (submodules p) (runs p).

(** ** State and exception monad *)

Definition M (A : Type) : Type := process -> (exn + A) * process.

Definition ret {A} (a : A) : M A := fun p => (inr a, p).

Definition raise {A} (e : exn) : M A := fun p => (inl e, p).

Definition bind {A B} (c : M A) (k : A -> M B) : M B :=
  fun p =>
    match c p with
    | (inl e, p') => (inl e, p')
    | (inr a, p') => k a p'
    end.

Notation "x <~ c ;; k" := (bind c (fun x => k))
  (at level 100, c at next level, right associativity).
Notation "c ;;; k" := (bind c (fun _ => k))
  (at level 100, right associativity).

(** ** The import system *)

Section ImportSystem.

(** Loading the sibling module [.m], whose body is not part of the file: the
    exception it raises, [ModuleNotFoundError (Submodule m)] when there is no
    such module, or the dictionary of the loaded module, which holds every
    name that [from .m import n] can find on it.  The siblings are plain
    modules, not packages. *)
Variable load : string -> exn + gmap string value.

(** [import yews.datasets.m]: a cached module is returned as it is; a module
    loaded now is entered in the cache and bound as attribute [m] of the
    package; a module that fails to load leaves the cache as it was and its
    exception propagates.  When no module of that name is found, no body has
    run and the log stays as it was.  The body of a sibling is taken to
    import no other module of the package: of the cache, the log and the
    package it changes what is its own. *)
Definition import_submodule (m : string) : M (gmap string value) :=
  fun p =>
    match submodules p !! m with
    | Some nsm => (inr nsm, p)
    | None =>
        match load m with
        | inl e =>
            (inl e,
             if decide (e = ModuleNotFoundError (Submodule m)) then p
             else mkProcess (package p) (submodules p) (runs p ++ [Submodule m]))
        | inr nsm =>
            (inr nsm,
             mkProcess (Some (<[m := Module m]> (globals p)))
                       (<[m := nsm]> (submodules p))
                       (runs p ++ [Submodule m]))
        end
    end.

(** The sibling as the next import of it will find it. *)
Definition resolve (p : process) (m : string) : exn + gmap string value :=
  match submodules p !! m with
  | Some nsm => inr nsm
  | None => load m
  end.

(** Names a wildcard import skips when the module has no [__all__]. *)
Definition public (n : string) : bool :=
  match n with
  | String "_"%char _ => false
  | _ => true
  end.

(** How a wildcard import fails: [__all__] is no sequence of str, or it
    lists a name the module does not have. *)
Inductive star_error : Type :=
  | NotASequence
  | Missing (n : string).

Definition star_exn (m : modname) (err : star_error) : exn :=
  match err with
  | NotASequence => TypeError m
  | Missing n => AttributeError m n
  end.

(** The loop of a wildcard import over the names of [__all__]: each name is
    looked up on the module and bound in the target; the first name the
    module lacks raises, and the names before it stay bound. *)
Fixpoint import_all_from (src : gmap string value) (names : list string)
    (tgt : gmap string value) : option star_error * gmap string value :=
  match names with
  | [] => (None, tgt)
  | n :: rest =>
      match src !! n with
      | None => (Some (Missing n), tgt)
      | Some v => import_all_from src rest (<[n := v]> tgt)
      end
  end.

(** [from m import *] into the dictionary [tgt], [src] being the dictionary
    of [m].  With [__all__] the loop above runs over it; without, every key
    not starting with an underscore is bound (the keys are distinct and each
    lookup succeeds, so the loop amounts to a union in which the imported
    bindings win). *)
Definition import_star (src tgt : gmap string value)
    : option star_error * gmap string value :=
  match src !! "__all__" with
  | Some (StrList names) => import_all_from src names tgt
  | Some _ => (Some NotASequence, tgt)
  | None => (None, filter (fun kv => public kv.1 = true) src ∪ tgt)
  end.

(** What a wildcard import of a module binds. *)
Definition star_exports (src : gmap string value) : gmap string value :=
  (import_star src ∅).2.

Definition exec_stmt (s : stmt) : M unit :=
  match s with
  | FromImport m n =>
      nsm <~ import_submodule m ;;
      match nsm !! n with
      | Some v => fun p => (inr tt, set_globals (<[n := v]> (globals p)) p)
      | None => raise (ImportError (Submodule m) n)
      end
  | FromImportStar m =>
      nsm <~ import_submodule m ;;
      fun p =>
        match import_star nsm (globals p) with
        | (Some err, g) => (inl (star_exn (Submodule m) err), set_globals g p)
        | (None, g) => (inr tt, set_globals g p)
        end
  | AssignList x d =>
      fun p => (inr tt, set_globals (<[x := StrList (eval_display d)]> (globals p)) p)
  end.

Fixpoint exec_body (body : list stmt) : M unit :=
  match body with
  | [] => ret tt
  | s :: rest => exec_stmt s ;;; exec_body rest
  end.

(** The process in which the body starts to run: the new module is in the
    cache, with the attributes the import system has given it. *)
Definition entered (p : process) : process :=
  mkProcess (Some module_dict) (submodules p) (runs p ++ [Package]).

(** [import yews.datasets] with the given body as [__init__.py]: a cached
    package is returned without running anything; otherwise a new module is
    entered in the cache, the body runs on its dictionary, and a body that
    raises has the module removed from the cache again. *)
Definition import_module (body : list stmt) : M unit :=
  fun p =>
    match package p with
    | Some _ => (inr tt, p)
    | None =>
        match exec_body body (entered p) with
        | (inl e, p') => (inl e, mkProcess None (submodules p') (runs p'))
        | (inr tt, p') => (inr tt, p')
        end
    end.

Definition import_package : M unit := import_module init_py.

(** [yews.datasets.n] on the imported package. *)
Definition getattr (n : string) : M value :=
  fun p =>
    match globals p !! n with
    | Some v => (inr v, p)
    | None => (inl (AttributeError Package n), p)
    end.

(** The first step of [from yews.datasets import *]: [yews.datasets] being
    a package, the import system tries every name of its [__all__] that is
    no attribute of it (and is not ['*']) as a submodule, and passes over a
    name for which no module is found. *)
Fixpoint handle_fromlist (names : list string) : M unit :=
  match names with
  | [] => ret tt
  | x :: rest =>
      fun p =>
        if decide (x = "*") then handle_fromlist rest p
        else
          match globals p !! x with
          | Some _ => handle_fromlist rest p
          | None =>
              match import_submodule x p with
              | (inl e, p') =>
                  if decide (e = ModuleNotFoundError (Submodule x))
                  then handle_fromlist rest p'
                  else (inl e, p')
              | (inr _, p') => handle_fromlist rest p'
              end
          end
  end.

Definition fromlist_star : M unit :=
  fun p =>
    match globals p !! "__all__" with
    | Some (StrList names) => handle_fromlist names p
    | Some _ => (inl (TypeError Package), p)
    | None => (inr tt, p)
    end.

(** The wildcard import of the package once it is imported, into a module
    whose globals are [scope]: the step above, then the loop. *)
Definition star_of_package (scope : gmap string value)
    : process -> (option exn * gmap string value) * process :=
  fun p =>
    match fromlist_star p with
    | (inl e, p') => ((Some e, scope), p')
    | (inr _, p') =>
        match import_star (globals p') scope with
        | (Some err, scope') => ((Some (star_exn Package err), scope'), p')
        | (None, scope') => ((None, scope'), p')
        end
    end.

(** [from yews.datasets import *] in a module whose globals are [scope]. *)
Definition wildcard_import (body : list stmt) (scope : gmap string value)
    : process -> (option exn * gmap string value) * process :=
  fun p =>
    match import_module body p with
    | (inl e, p') => ((Some e, scope), p')
    | (inr _, p') => star_of_package scope p'
    end.

(** No name of the list that the package lacks is the name of a module
    that can be found: the package directory holds no stray submodule. *)
Definition no_stray_submodule (names : list string) (p : process) : Prop :=
  forall k, k ∈ names -> globals p !! k = None ->
            resolve p k = inl (ModuleNotFoundError (Submodule k)).



(** Why lines 1-14 fail, when they do. *)
Definition import_failure (p : process) (e : exn) : Prop :=
  (exists m, m ∈ referenced_modules /\ resolve p m = inl e) \/
  (exists m n nsm, (m, n) ∈ named_symbols /\ resolve p m = inr nsm /\
                   nsm !! n = None /\ e = ImportError (Submodule m) n) \/
  (exists nu err, resolve p "utils" = inr nu /\
                  (import_star nu ∅).1 = Some err /\
                  e = star_exn (Submodule "utils") err).

End ImportSystem.

(** ** Sample siblings *)

(** [base] and [packaged_datasets] with the symbols lines 1-13 ask of them,
    each a distinct object, and a [utils] without [__all__] that defines two
    public helpers and a private one. *)

Definition base_ns : gmap string value :=
  list_to_map
    [ ("BaseDataset", Obj 1); ("Dataset", Obj 2); ("DirDataset", Obj 3);
      ("FileDataset", Obj 4); ("is_dataset", Obj 5); ("PathDataset", Obj 6) ].

Definition packaged_ns : gmap string value :=
  list_to_map
    [ ("Mariana", Obj 7); ("PackagedDataset", Obj 8); ("SCSN", Obj 9);
      ("Wenchuan", Obj 10); ("SCSN_polarity", Obj 11);
      ("Taiwan_focal_mechanism", Obj 12); ("Taiwan20092010", Obj 13) ].

Definition utils_ns : gmap string value :=
  list_to_map [ ("download_url", Obj 14); ("extract_bz2", Obj 15); ("_hidden", Obj 16) ].

Definition sample_load (m : string) : exn + gmap string value :=
  if decide (m = "base") then inr base_ns
  else if decide (m = "packaged_datasets") then inr packaged_ns
  else if decide (m = "utils") then inr utils_ns
  else inl (ModuleNotFoundError (Submodule m)).

(** The same siblings with [SCSN] taken out of [packaged_datasets]. *)
Definition broken_load (m : string) : exn + gmap string value :=
  if decide (m = "packaged_datasets") then inr (delete "SCSN" packaged_ns)
  else sample_load m.


(** The sample siblings with another [utils]. *)
Definition with_utils (nu : gmap string value) (m : string)
    : exn + gmap string value :=
  if decide (m = "utils") then inr nu else sample_load m.

Example sample_import :
  (import_package sample_load fresh).1 = inr tt.
Proof. vm_compute. reflexivity. Qed.

Example sample_getattr :
  (getattr "SCSN" (import_package sample_load fresh).2).1 = inr (Obj 9).
Proof. vm_compute. reflexivity. Qed.

(** ** The wildcard-import loop *)

Lemma import_all_from_error src names tgt :
  (import_all_from src names tgt).1 = (import_all_from src names ∅).1.
Proof.
  generalize (∅ : gmap string value). revert tgt.
  induction names as [|n names IH]; intros tgt tgt'; simpl; [done|].
  destruct (src !! n); [apply IH | done].
Qed.

Lemma import_all_from_lookup src names tgt k :
  k ∉ names ->
  (import_all_from src names tgt).2 !! k = tgt !! k.
Proof.
  revert tgt. induction names as [|n names IH]; intros tgt Hk; simpl; [done|].
  apply not_elem_of_cons in Hk as [Hkn Hk].
  destruct (src !! n); [|done].
  rewrite IH by done. by rewrite lookup_insert_ne.
Qed.

Lemma import_all_from_ok src names tgt tgt' :
  import_all_from src names tgt = (None, tgt') ->
  forall k, tgt' !! k = if decide (k ∈ names) then src !! k else tgt !! k.
Proof.
  revert tgt. induction names as [|n names IH]; intros tgt H k; simpl in H.
  - injection H as <-. by rewrite decide_False by apply not_elem_of_nil.
  - destruct (src !! n) as [v|] eqn:Hn; [|done].
    rewrite (IH _ H k).
    destruct (decide (k ∈ names)) as [Hin|Hnin].
    + rewrite decide_True; [done | by right].
    + destruct (decide (k = n)) as [->|Hne].
      * rewrite decide_True by left. by rewrite lookup_insert_eq.
      * rewrite decide_False; [by rewrite lookup_insert_ne|].
        by intros [?|?]%elem_of_cons.
Qed.

Lemma import_all_from_resolves src names tgt tgt' :
  import_all_from src names tgt = (None, tgt') ->
  forall k, k ∈ names -> is_Some (src !! k).
Proof.
  revert tgt. induction names as [|n names IH]; intros tgt H k Hk; simpl in H.
  - by apply elem_of_nil in Hk.
  - destruct (src !! n) as [v|] eqn:Hn; [|done].
    apply elem_of_cons in Hk as [->|Hk]; [by rewrite Hn | by eapply IH].
Qed.

(** The loop stops at the first name the module lacks: the names before it
    are bound, that name is reported, the names after it are not reached. *)
Lemma import_all_from_first_missing src before n after tgt :
  (forall k, k ∈ before -> is_Some (src !! k)) ->
  src !! n = None ->
  (import_all_from src (before ++ n :: after) tgt).1 = Some (Missing n) /\
  forall k, (import_all_from src (before ++ n :: after) tgt).2 !! k =
            if decide (k ∈ before) then src !! k else tgt !! k.
Proof.
  revert tgt. induction before as [|b before IH]; intros tgt Hb Hn; simpl.
  - rewrite Hn. split; [done|]. intros k.
    done.
  - destruct (Hb b) as [v Hv]; [left|]. rewrite Hv.
    destruct (IH (<[b := v]> tgt)) as [IH1 IH2]; [intros; apply Hb; by right | done |].
    split; [done|]. intros k. rewrite IH2.
    destruct (decide (k ∈ before)) as [Hin|Hnin].
    + rewrite decide_True; [done | by right].
    + destruct (decide (k = b)) as [->|Hne].
      * rewrite decide_True by left. by rewrite lookup_insert_eq.
      * rewrite decide_False; [by rewrite lookup_insert_ne|].
        by intros [?|?]%elem_of_cons.
Qed.

Lemma import_all_from_all_resolve src names tgt :
  (forall k, k ∈ names -> is_Some (src !! k)) ->
  (import_all_from src names tgt).1 = None.
Proof.
  revert tgt. induction names as [|n names IH]; intros tgt H; simpl; [done|].
  destruct (H n) as [v Hv]; [left|]. rewrite Hv.
  apply IH. intros; apply H; by right.
Qed.

Lemma import_star_error src tgt :
  (import_star src tgt).1 = (import_star src ∅).1.
Proof.
  unfold import_star. destruct (src !! "__all__") as [[]|]; try done.
  apply import_all_from_error.
Qed.

(** A wildcard import that succeeds lays the exports of the module over the
    target. *)
Lemma import_star_ok src tgt tgt' :
  import_star src tgt = (None, tgt') ->
  tgt' = star_exports src ∪ tgt.
Proof.
  unfold star_exports, import_star.
  destruct (src !! "__all__") as [[| |names| |]|] eqn:Hall; try done.
  - intros H. apply map_eq. intros k.
    assert ((import_all_from src names ∅).1 = None) as H0.
    { rewrite <- import_all_from_error with (tgt := tgt). by rewrite H. }
    destruct (import_all_from src names ∅) as [r0 e0] eqn:He0. simpl in H0. subst r0.
    rewrite lookup_union. simpl.
    rewrite (import_all_from_ok _ _ _ _ H k), (import_all_from_ok _ _ _ _ He0 k).
    destruct (decide (k ∈ names)) as [Hin|Hnin].
    + destruct (import_all_from_resolves _ _ _ _ H k Hin) as [v ->].
      by destruct (tgt !! k).
    + rewrite lookup_empty. by destruct (tgt !! k).
  - intros H. injection H as <-. simpl. by rewrite (right_id_L ∅ (∪)).
Qed.

(** ** Running a module body *)

Section Execution.

Context (load : string -> exn + gmap string value).

Lemma exec_body_cons s body p :
  exec_body load (s :: body) p =
  match exec_stmt load s p with
  | (inl e, p') => (inl e, p')
  | (inr _, p') => exec_body load body p'
  end.
Proof. done. Qed.

Lemma exec_body_app b1 b2 p :
  exec_body load (b1 ++ b2) p =
  match exec_body load b1 p with
  | (inl e, p') => (inl e, p')
  | (inr _, p') => exec_body load b2 p'
  end.
Proof.
  revert p. induction b1 as [|s b1 IH]; intros p; [done|].
  rewrite <- app_comm_cons, !exec_body_cons.
  destruct (exec_stmt load s p) as [[e|[]] p1]; [done|]. apply IH.
Qed.

(** Importing a sibling: the outcome is what [resolve] foretells, siblings
    resolve afterwards as before, only the attribute [m] of the package may
    change, and the package stays in the cache. *)
Lemma import_submodule_spec m p r p' :
  import_submodule load m p = (r, p') ->
  r = resolve load p m /\
  (forall k, resolve load p' k = resolve load p k) /\
  (forall k, k ≠ m -> globals p' !! k = globals p !! k) /\
  (is_Some (package p) -> is_Some (package p')).
Proof.
  unfold import_submodule, resolve.
  destruct (submodules p !! m) as [nsm|] eqn:Hm.
  { by intros [= <- <-]. }
  destruct (load m) as [e|nsm] eqn:Hl; intros [= <- <-]; simpl.
  { by case_decide. }
  repeat split; [|intros k Hk; unfold globals; simpl; by rewrite lookup_insert_ne|done].
  intros k. destruct (decide (k = m)) as [->|Hne].
  - by rewrite lookup_insert_eq, Hm.
  - by rewrite lookup_insert_ne.
Qed.

Lemma exec_stmt_resolve s p r p' :
  exec_stmt load s p = (r, p') ->
  (forall k, resolve load p' k = resolve load p k) /\
  (is_Some (package p) -> is_Some (package p')).
Proof.
  destruct s as [m n|m|x d]; simpl; unfold bind.
  - destruct (import_submodule load m p) as [[e|nsm] p1] eqn:H1;
      apply import_submodule_spec in H1 as (_ & Hres & _ & Hpk).
    { by intros [= <- <-]. }
    destruct (nsm !! n); intros [= <- <-]; done.
  - destruct (import_submodule load m p) as [[e|nsm] p1] eqn:H1;
      apply import_submodule_spec in H1 as (_ & Hres & _ & Hpk).
    { by intros [= <- <-]. }
    destruct (import_star nsm (globals p1)) as [[err|] g]; intros [= <- <-]; done.
  - intros [= <- <-]. done.
Qed.

Lemma exec_body_resolve body p r p' :
  exec_body load body p = (r, p') ->
  (forall k, resolve load p' k = resolve load p k) /\
  (is_Some (package p) -> is_Some (package p')).
Proof.
  revert p. induction body as [|s body IH]; intros p.
  { by intros [= <- <-]. }
  rewrite exec_body_cons. destruct (exec_stmt load s p) as [[e|[]] p1] eqn:H1;
    apply exec_stmt_resolve in H1 as [Hres Hpk].
  { by intros [= <- <-]. }
  intros H. apply IH in H as [Hres' Hpk']. split; [|tauto].
  intros k. by rewrite Hres', Hres.
Qed.

(** One [from .m import n]. *)
Lemma exec_from_import m n p r p' :
  exec_stmt load (FromImport m n) p = (r, p') ->
  (forall k, k ≠ m -> k ≠ n -> globals p' !! k = globals p !! k) /\
  match r with
  | inr _ => exists nsm, resolve load p m = inr nsm /\ is_Some (nsm !! n) /\
                         globals p' !! n = nsm !! n
  | inl e => resolve load p m = inl e \/
             exists nsm, resolve load p m = inr nsm /\ nsm !! n = None /\
                         e = ImportError (Submodule m) n
  end.
Proof.
  simpl; unfold bind.
  destruct (import_submodule load m p) as [[e|nsm] p1] eqn:H1;
    apply import_submodule_spec in H1 as (Hr & _ & Hfr & _).
  { intros [= <- <-]. split; [intros; by apply Hfr | by left]. }
  destruct (nsm !! n) as [v|] eqn:Hn; intros [= <- <-].
  - split.
    + intros k Hkm Hkn. unfold globals at 1; simpl.
      rewrite lookup_insert_ne by done. by apply Hfr.
    + exists nsm. unfold globals at 1; simpl.
      by rewrite lookup_insert_eq, Hn.
  - split; [intros; by apply Hfr|]. right. by exists nsm.
Qed.

(** A run of named imports leaves every other name as it was. *)
Lemma exec_named_frame l p r p' k :
  exec_body load (from_imports l) p = (r, p') ->
  k ∉ l.*1 -> k ∉ l.*2 ->
  globals p' !! k = globals p !! k.
Proof.
  revert p. induction l as [|[m n] l IH]; intros p.
  { by intros [= <- <-]. }
  unfold from_imports. rewrite !fmap_cons, exec_body_cons. simpl fst; simpl snd.
  intros H [Hm Hl1]%not_elem_of_cons [Hn Hl2]%not_elem_of_cons.
  destruct (exec_stmt load (FromImport m n) p) as [[e|[]] p1] eqn:H1;
    apply exec_from_import in H1 as [Hfr _].
  { injection H as <- <-. by apply Hfr. }
  rewrite (IH _ H) by done. by apply Hfr.
Qed.

(** A run of named imports that succeeds: every sibling loaded, every
    symbol found and bound to the object its module has under that name. *)
Lemma exec_named_ok l p p' :
  NoDup l.*2 -> (forall n, n ∈ l.*2 -> n ∉ l.*1) ->
  exec_body load (from_imports l) p = (inr tt, p') ->
  forall m n, (m, n) ∈ l ->
    exists nsm, resolve load p m = inr nsm /\ is_Some (nsm !! n) /\
                globals p' !! n = nsm !! n.
Proof.
  revert p. induction l as [|[m0 n0] l IH]; intros p Hnd Hdisj.
  { intros _ m n []%elem_of_nil. }
  unfold from_imports. rewrite fmap_cons, exec_body_cons. simpl fst; simpl snd.
  rewrite !fmap_cons in Hnd, Hdisj. simpl in Hnd, Hdisj.
  apply NoDup_cons in Hnd as [Hn0 Hnd].
  destruct (exec_stmt load (FromImport m0 n0) p) as [[e|[]] p1] eqn:H1; [done|].
  pose proof (exec_stmt_resolve _ _ _ _ H1) as [Hres _].
  apply exec_from_import in H1 as [_ (nsm0 & Hr0 & Hs0 & Hg0)].
  intros H m n [[= -> ->]|Hin]%elem_of_cons.
  - exists nsm0. repeat split; [done..|].
    rewrite <- Hg0. eapply exec_named_frame; [done| |done].
    intros Hin. apply (Hdisj n0); [left | by right].
  - destruct (IH p1) with (m := m) (n := n) as (nsm & Hr & Hs & Hg); try done.
    + intros k Hk Hk'. apply (Hdisj k); by right.
    + exists nsm. by rewrite <- Hres.
Qed.

(** A run of named imports that fails: a sibling did not load and its
    exception is passed on, or a loaded sibling lacks a symbol. *)
Lemma exec_named_fails l p e p' :
  exec_body load (from_imports l) p = (inl e, p') ->
  exists m n, (m, n) ∈ l /\
    (resolve load p m = inl e \/
     exists nsm, resolve load p m = inr nsm /\ nsm !! n = None /\
                 e = ImportError (Submodule m) n).
Proof.
  revert p. induction l as [|[m0 n0] l IH]; intros p; [done|].
  unfold from_imports. rewrite fmap_cons, exec_body_cons. simpl fst; simpl snd.
  destruct (exec_stmt load (FromImport m0 n0) p) as [[e0|[]] p1] eqn:H1.
  - intros [= <- <-]. apply exec_from_import in H1 as [_ H1].
    exists m0, n0. split; [left | done].
  - pose proof (exec_stmt_resolve _ _ _ _ H1) as [Hres _].
    intros (m & n & Hin & H)%IH. exists m, n. split; [by right|].
    by rewrite <- Hres.
Qed.

(** [from .m import *]. *)
Lemma exec_from_import_star m p r p' :
  exec_stmt load (FromImportStar m) p = (r, p') ->
  match r with
  | inr _ => exists nsm g, resolve load p m = inr nsm /\
                           (import_star nsm ∅).1 = None /\
                           globals p' = star_exports nsm ∪ g /\
                           forall k, k ≠ m -> g !! k = globals p !! k
  | inl e => resolve load p m = inl e \/
             exists nsm err, resolve load p m = inr nsm /\
                             (import_star nsm ∅).1 = Some err /\
                             e = star_exn (Submodule m) err
  end.
Proof.
  simpl; unfold bind.
  destruct (import_submodule load m p) as [[e|nsm] p1] eqn:H1;
    apply import_submodule_spec in H1 as (Hr & _ & Hfr & _).
  { intros [= <- <-]. by left. }
  destruct (import_star nsm (globals p1)) as [[err|] g] eqn:Hst; intros [= <- <-].
  - right. exists nsm, err. repeat split; [done|].
    by rewrite <- import_star_error with (tgt := globals p1), Hst.
  - exists nsm, (globals p1). repeat split; [done| |by apply import_star_ok|done].
    by rewrite <- import_star_error with (tgt := globals p1), Hst.
Qed.

End Execution.

(** ** The body of the package *)

Lemma imports_split :
  imports = from_imports named_symbols ++ [FromImportStar "utils"].
Proof. reflexivity. Qed.

Lemma named_symbols_nodup : NoDup named_symbols.*2.
Proof. apply (bool_decide_unpack _). by vm_compute. Qed.

Lemma named_symbols_disjoint n :
  n ∈ named_symbols.*2 -> n ∉ named_symbols.*1.
Proof.
  intros Hn Hm.
  assert (Forall (fun k => k ∉ named_symbols.*1) named_symbols.*2) as H.
  { apply (bool_decide_unpack _). by vm_compute. }
  rewrite Forall_forall in H. by apply (H n).
Qed.

Lemma named_symbols_modules m n :
  (m, n) ∈ named_symbols -> m ∈ referenced_modules /\ m ≠ "utils" /\ n ≠ "utils" /\ n ≠ "__all__".
Proof.
  intros H.
  assert (Forall (fun mn => mn.1 ∈ referenced_modules /\ mn.1 ≠ "utils" /\
                            mn.2 ≠ "utils" /\ mn.2 ≠ "__all__") named_symbols) as HF.
  { apply (bool_decide_unpack _). by vm_compute. }
  rewrite Forall_forall in HF. apply (HF _ H).
Qed.

Section Package.

Context (load : string -> exn + gmap string value).


Lemma resolve_entered p m : resolve load (entered p) m = resolve load p m.
Proof. done. Qed.

(** The assignment to [__all__] is the last statement and cannot fail: the
    body succeeds or fails as lines 1-14 do. *)
Lemma import_module_body d p :
  package p = None ->
  import_module load (package_body d) p =
  match import_module load imports p with
  | (inl e, q) => (inl e, q)
  | (inr _, q) =>
      (inr tt, set_globals (<["__all__" := StrList (eval_display d)]> (globals q)) q)
  end.
Proof.
  intros Hp. unfold import_module, package_body. rewrite Hp, exec_body_app.
  destruct (exec_body load imports _) as [[e|[]] q]; done.
Qed.

Lemma imports_ok p q :
  package p = None ->
  import_module load imports p = (inr tt, q) ->
  exists nu g,
    resolve load p "utils" = inr nu /\
    (import_star nu ∅).1 = None /\
    package q = Some (star_exports nu ∪ g) /\
    (forall m n, (m, n) ∈ named_symbols ->
       exists nsm, resolve load p m = inr nsm /\ is_Some (nsm !! n) /\
                   g !! n = nsm !! n) /\
    (forall k, k ∉ named_symbols.*2 -> k ∉ referenced_modules ->
               g !! k = module_dict !! k).
Proof.
  intros Hp. unfold import_module. rewrite Hp, imports_split, exec_body_app.
  destruct (exec_body load (from_imports named_symbols) (entered p))
    as [[e|[]] p1] eqn:H1; [done|].
  rewrite exec_body_cons.
  destruct (exec_stmt load (FromImportStar "utils") p1) as [[e|[]] p2] eqn:H2; [done|].
  intros [= <-].
  pose proof (exec_body_resolve _ _ _ _ _ H1) as [Hres Hpk].
  pose proof (exec_stmt_resolve _ _ _ _ _ H2) as [_ Hpk'].
  apply exec_from_import_star in H2 as (nu & g & Hu & Hst & Hg & Hfr).
  exists nu, g. repeat split.
  - by rewrite <- resolve_entered, <- Hres.
  - done.
  - destruct Hpk' as [g' Hg']; [apply Hpk; by eexists|].
    unfold globals in Hg. rewrite Hg' in Hg. simpl in Hg. by rewrite Hg'; f_equal.
  - intros m n Hmn.
    destruct (exec_named_ok load _ _ _ named_symbols_nodup named_symbols_disjoint H1 m n Hmn)
      as (nsm & Hr & Hs & Hv).
    exists nsm. repeat split; [done..|].
    rewrite Hfr; [done|]. by apply named_symbols_modules in Hmn as (_ & _ & ? & _).
  - intros k Hk Hm.
    assert (k ≠ "utils") as Hku.
    { intros ->. apply Hm. apply (bool_decide_unpack _). by vm_compute. }
    rewrite Hfr by done.
    rewrite (exec_named_frame load _ _ _ _ k H1); [done| |done].
    intros Hin. apply Hm. unfold referenced_modules. rewrite elem_of_remove_dups.
    rewrite imports_split, bind_app. apply elem_of_app. left.
    clear -Hin. induction named_symbols as [|[m n] l IH]; [done|].
    rewrite fmap_cons in Hin. apply elem_of_cons in Hin as [->|Hin].
    + left.
    + right. by apply IH.
Qed.


Lemma imports_fail p e q :
  package p = None ->
  import_module load imports p = (inl e, q) ->
  package q = None /\ import_failure load p e.
Proof.
  intros Hp. unfold import_module. rewrite Hp, imports_split, exec_body_app.
  destruct (exec_body load (from_imports named_symbols) (entered p))
    as [[e1|[]] p1] eqn:H1.
  - intros [= <- <-]. split; [done|].
    apply exec_named_fails in H1 as (m & n & Hmn & [H|(nsm & H)]).
    + left. exists m. split; [by apply named_symbols_modules in Hmn as [? _] | done].
    + right; left. by exists m, n, nsm.
  - rewrite exec_body_cons.
    pose proof (exec_body_resolve _ _ _ _ _ H1) as [Hres _].
    destruct (exec_stmt load (FromImportStar "utils") p1) as [[e2|[]] p2] eqn:H2; [|done].
    intros [= <- <-]. split; [done|].
    apply exec_from_import_star in H2 as [H|(nu & err & Hu & H)].
    + left. exists "utils". rewrite Hres in H. split; [|done].
      apply (bool_decide_unpack _). by vm_compute.
    + right; right. exists nu, err. by rewrite Hres in Hu.
Qed.

(** A package in the cache is returned as it is, and nothing runs. *)
Lemma import_module_cached body p :
  is_Some (package p) -> import_module load body p = (inr tt, p).
Proof. intros [g Hg]. unfold import_module. by rewrite Hg. Qed.

Lemma import_module_enters body p p' :
  import_module load body p = (inr tt, p') -> is_Some (package p').
Proof.
  unfold import_module. destruct (package p) as [g|] eqn:Hp.
  { intros [= <-]. by rewrite Hp. }
  destruct (exec_body load body _) as [[e|[]] q] eqn:H; [done|].
  intros [= <-]. apply exec_body_resolve in H as [_ H]. apply H. by eexists.
Qed.

End Package.

(** ** Consumers of the package *)

Section Consumers.

Context (load : string -> exn + gmap string value).

(** The submodule attempts bind only names the package lacks. *)
Lemma handle_fromlist_keeps names p r p' k :
  handle_fromlist load names p = (r, p') ->
  is_Some (globals p !! k) ->
  globals p' !! k = globals p !! k.
Proof.
  revert p. induction names as [|x names IH]; intros p; simpl.
  { by intros [= <- <-]. }
  destruct (decide (x = "*")) as [_|_]; [apply IH|].
  destruct (globals p !! x) eqn:Hx; [apply IH|].
  intros H Hk.
  assert (k ≠ x) as Hne by (intros ->; rewrite Hx in Hk; by destruct Hk).
  destruct (import_submodule load x p) as [[e|nsm] p1] eqn:H1;
    apply import_submodule_spec in H1 as (_ & _ & Hfr & _);
    specialize (Hfr k Hne).
  - case_decide.
    + rewrite (IH _ H), Hfr; [done|]. by rewrite Hfr.
    + by injection H as <- <-.
  - rewrite (IH _ H), Hfr; [done|]. by rewrite Hfr.
Qed.

(** With no stray submodule the attempts change nothing. *)
Lemma handle_fromlist_idle names p :
  no_stray_submodule load names p ->
  handle_fromlist load names p = (inr tt, p).
Proof.
  induction names as [|x names IH]; intros Hno; simpl; [done|].
  assert (handle_fromlist load names p = (inr tt, p)) as Hrest.
  { apply IH. intros k Hk. apply Hno. by right. }
  destruct (decide (x = "*")) as [_|_]; [done|].
  destruct (globals p !! x) eqn:Hx; [done|].
  specialize (Hno x (list_elem_of_here _ _) Hx).
  unfold resolve in Hno. unfold import_submodule.
  destruct (submodules p !! x); [done|]. rewrite Hno.
  by rewrite !decide_True.
Qed.

(** A wildcard import of the package, before or after its first import,
    works on the dictionary the first import has built. *)
Lemma wildcard_import_imported body scope p p' q :
  import_module load body p = (inr tt, p') ->
  q = p \/ q = p' ->
  wildcard_import load body scope q = star_of_package load scope p'.
Proof.
  intros H [->| ->]; unfold wildcard_import.
  - by rewrite H.
  - by rewrite import_module_cached by by eapply import_module_enters.
Qed.

(** With no stray submodule, the wildcard import of the imported package is
    the loop over its [__all__], and the process stays as it is. *)
Lemma star_of_package_loop scope p names :
  globals p !! "__all__" = Some (StrList names) ->
  no_stray_submodule load names p ->
  star_of_package load scope p =
  match import_all_from (globals p) names scope with
  | (Some err, scope') => ((Some (star_exn Package err), scope'), p)
  | (None, scope') => ((None, scope'), p)
  end.
Proof.
  intros Hall Hno. unfold star_of_package, fromlist_star.
  rewrite Hall, handle_fromlist_idle by done.
  unfold import_star. by rewrite Hall.
Qed.

(** The wildcard import of the imported package touches no name outside its
    [__all__], whether it succeeds or raises. *)
Lemma star_of_package_frame scope p names r scope' p' k :
  globals p !! "__all__" = Some (StrList names) ->
  star_of_package load scope p = ((r, scope'), p') ->
  k ∉ names ->
  scope' !! k = scope !! k.
Proof.
  intros Hall H Hk. unfold star_of_package, fromlist_star in H. rewrite Hall in H.
  destruct (handle_fromlist load names p) as [[e|[]] p1] eqn:H1.
  { by injection H as <- <- <-. }
  pose proof (handle_fromlist_keeps _ _ _ _ "__all__" H1) as Hkeep.
  rewrite Hall in Hkeep. specialize (Hkeep (mk_is_Some _ _ eq_refl)).
  unfold import_star in H. rewrite Hkeep in H.
  pose proof (import_all_from_lookup (globals p1) names scope k Hk) as Hfr.
  destruct (import_all_from (globals p1) names scope) as [[err|] s];
    by injection H as <- <- <-.
Qed.

(** The dictionary of the imported package. *)
Lemma package_globals d p p' :
  package p = None ->
  import_module load (package_body d) p = (inr tt, p') ->
  exists q, import_module load imports p = (inr tt, q) /\
    p' = set_globals (<["__all__" := StrList (eval_display d)]> (globals q)) q.
Proof.
  intros Hp. rewrite import_module_body by done.
  destruct (import_module load imports p) as [[e|[]] q]; [done|].
  intros [= <-]. by exists q.
Qed.

Lemma package_all d p p' :
  package p = None ->
  import_module load (package_body d) p = (inr tt, p') ->
  globals p' !! "__all__" = Some (StrList (eval_display d)).
Proof.
  intros Hp (q & _ & ->)%package_globals; [|done].
  unfold globals; simpl. by rewrite lookup_insert_eq.
Qed.

(** Every symbol imported by name is an attribute of the package: the
    object [utils] exports under that name if there is one, else the
    object of the module it is imported from. *)
Lemma package_named d p p' m n :
  package p = None ->
  import_module load (package_body d) p = (inr tt, p') ->
  (m, n) ∈ named_symbols ->
  exists nsm nu, resolve load p m = inr nsm /\ resolve load p "utils" = inr nu /\
    is_Some (nsm !! n) /\ globals p' !! n = (star_exports nu ∪ nsm) !! n.
Proof.
  intros Hp (q & Hq & ->)%package_globals Hmn; [|done].
  destruct (imports_ok load p q Hp Hq) as (nu & g & Hu & _ & Hg & Hnamed & _).
  destruct (Hnamed m n Hmn) as (nsm & Hr & Hs & Hv).
  exists nsm, nu. repeat split; [done..|].
  unfold globals; simpl.
  rewrite lookup_insert_ne by by apply named_symbols_modules in Hmn as (_ & _ & _ & ?).
  rewrite Hg. simpl. by rewrite !lookup_union, Hv.
Qed.

(** Every export of [utils] is an attribute of the package. *)
Lemma package_utils d p p' nu n v :
  package p = None ->
  import_module load (package_body d) p = (inr tt, p') ->
  resolve load p "utils" = inr nu ->
  star_exports nu !! n = Some v -> n ≠ "__all__" ->
  globals p' !! n = Some v.
Proof.
  intros Hp (q & Hq & ->)%package_globals Hu Hn Hne; [|done].
  destruct (imports_ok load p q Hp Hq) as (nu' & g & Hu' & _ & Hg & _).
  rewrite Hu in Hu'. injection Hu' as <-.
  unfold globals; simpl. rewrite lookup_insert_ne by done.
  rewrite Hg. simpl. rewrite lookup_union, Hn. by destruct (g !! n).
Qed.

(** A name that is neither imported by name, nor a sibling, nor [__all__],
    nor an attribute the module starts with, is an attribute of the package
    only if [utils] exports it. *)
Lemma package_other d p p' nu k :
  package p = None ->
  import_module load (package_body d) p = (inr tt, p') ->
  resolve load p "utils" = inr nu ->
  k ∉ named_symbols.*2 -> k ∉ referenced_modules -> k ≠ "__all__" ->
  module_dict !! k = None ->
  globals p' !! k = star_exports nu !! k.
Proof.
  intros Hp (q & Hq & ->)%package_globals Hu Hk Hm Hne Hd; [|done].
  destruct (imports_ok load p q Hp Hq) as (nu' & g & Hu' & _ & Hg & _ & Hfr).
  rewrite Hu in Hu'. injection Hu' as <-.
  unfold globals; simpl. rewrite lookup_insert_ne by done.
  rewrite Hg. simpl. rewrite lookup_union, (Hfr k Hk Hm), Hd.
  by destruct (star_exports nu !! k).
Qed.

(** A wildcard import of the package touches no name outside [__all__],
    whether it succeeds, raises on the way, or fails to import. *)
Lemma wildcard_import_frame d scope p p' q r scope' q' k :
  package p = None ->
  import_module load (package_body d) p = (inr tt, p') ->
  q = p \/ q = p' ->
  wildcard_import load (package_body d) scope q = ((r, scope'), q') ->
  k ∉ eval_display d ->
  scope' !! k = scope !! k.
Proof.
  intros Hp H Hq Hw Hk.
  rewrite (wildcard_import_imported _ _ _ _ _ H Hq) in Hw.
  eapply star_of_package_frame; [|done..]. by eapply package_all.
Qed.

End Consumers.

(** The sample siblings come with no stray submodule. *)
Lemma sample_no_stray :
  no_stray_submodule sample_load all_names (import_package sample_load fresh).2.
Proof.
  intros k Hk.
  assert (Forall (fun k =>
            globals (import_package sample_load fresh).2 !! k = None ->
            resolve sample_load (import_package sample_load fresh).2 k =
              inl (ModuleNotFoundError (Submodule k))) all_names) as HF.
  { apply (bool_decide_unpack _). by vm_compute. }
  rewrite Forall_forall in HF. by apply HF.
Qed.

(** ** The allow-list *)

(** C1: the display assigned to [__all__] ends in the two adjacent literals
    'Taiwan_focal_mechanism' 'Taiwan20092010' with no comma between them, so
    the list bound to [__all__] has eleven entries, not twelve: the
    concatenated string is one of them and neither of the two names is. *)
Theorem all_has_concatenated_entry :
  last init_py = Some (AssignList "__all__" all_display) /\
  last all_display = Some ["Taiwan_focal_mechanism"; "Taiwan20092010"] /\
  all_names =
    [ "BaseDataset"; "PathDataset"; "FileDataset"; "DirDataset"; "Dataset";
      "PackagedDataset"; "Wenchuan"; "Mariana"; "SCSN"; "SCSN_polarity";
      "Taiwan_focal_mechanismTaiwan20092010" ] /\
  length all_names = 11 /\
  length (eval_display corrected_display) = 12 /\
  "Taiwan_focal_mechanismTaiwan20092010" ∈ all_names /\
  ("Taiwan_focal_mechanism" ∉ all_names) /\
  ("Taiwan20092010" ∉ all_names) /\
  forall load p p',
    package p = None -> import_package load p = (inr tt, p') ->
    getattr "__all__" p' = (inr (StrList all_names), p').
Proof.
  repeat split; try reflexivity.
  - apply (bool_decide_unpack _). by vm_compute.
  - apply (bool_decide_unpack _). by vm_compute.
  - apply (bool_decide_unpack _). by vm_compute.
  - intros load p p' Hp H. unfold getattr.
    by rewrite (package_all load all_display p p' Hp H).
Qed.

Lemma all_has_concatenated_entry_witness :
  package fresh = None /\
  import_package sample_load fresh = (inr tt, (import_package sample_load fresh).2) /\
  getattr "__all__" (import_package sample_load fresh).2 =
    (inr (StrList all_names), (import_package sample_load fresh).2).
Proof.
  split; [reflexivity|]. split; [vm_compute; reflexivity|].
  apply (all_has_concatenated_entry) with (load := sample_load) (p := fresh);
    [reflexivity | vm_compute; reflexivity].
Defined.

(** C2, at the failing input: with siblings that export every symbol the
    package asks of them, the package imports, yet the allow-list entry
    'Taiwan_focal_mechanismTaiwan20092010' is no attribute of it: the lookup
    raises AttributeError. *)
Theorem getattr_concatenated_entry_raises :
  (import_package sample_load fresh).1 = inr tt /\
  "Taiwan_focal_mechanismTaiwan20092010" ∈ all_names /\
  (getattr "Taiwan_focal_mechanismTaiwan20092010"
     (import_package sample_load fresh).2).1 =
    inl (AttributeError Package "Taiwan_focal_mechanismTaiwan20092010").
Proof.
  split; [vm_compute; reflexivity|]. split; [|vm_compute; reflexivity].
  apply (bool_decide_unpack _). by vm_compute.
Qed.

(** In general: the concatenated entry is an attribute of the imported
    package only if [utils] happens to export a symbol of that very name. *)
Lemma concatenated_entry_only_from_utils load p p' nu :
  package p = None ->
  import_package load p = (inr tt, p') ->
  resolve load p "utils" = inr nu ->
  globals p' !! "Taiwan_focal_mechanismTaiwan20092010" =
    star_exports nu !! "Taiwan_focal_mechanismTaiwan20092010".
Proof.
  intros Hp H Hu.
  apply (package_other load all_display p p' nu _ Hp H Hu);
    [apply (bool_decide_unpack _); by vm_compute..|done|by vm_compute].
Qed.

(** C3: after the package is imported, attribute access to
    [Taiwan_focal_mechanism] and to [Taiwan20092010] succeeds, while a
    wildcard import of the package (as first import or later) binds neither
    name in the importer's scope; the concatenated entry is the name of no
    symbol imported by name, and is an attribute of the package only if
    [utils] exports a symbol of that very name; and the display of [__all__]
    decides nothing but the attribute [__all__] itself: with any other
    display the package has the same attributes otherwise and the same cache
    of siblings. *)
Theorem taiwan_names_hidden_from_wildcard_only load p p' :
  package p = None ->
  import_package load p = (inr tt, p') ->
  (exists v, getattr "Taiwan_focal_mechanism" p' = (inr v, p')) /\
  (exists v, getattr "Taiwan20092010" p' = (inr v, p')) /\
  (forall scope q r scope' q',
     q = p \/ q = p' ->
     wildcard_import load init_py scope q = ((r, scope'), q') ->
     scope' !! "Taiwan_focal_mechanism" = scope !! "Taiwan_focal_mechanism" /\
     scope' !! "Taiwan20092010" = scope !! "Taiwan20092010") /\
  (forall m n, (m, n) ∈ named_symbols -> n ≠ "Taiwan_focal_mechanismTaiwan20092010") /\
  (forall nu, resolve load p "utils" = inr nu ->
     globals p' !! "Taiwan_focal_mechanismTaiwan20092010" =
       star_exports nu !! "Taiwan_focal_mechanismTaiwan20092010") /\
  (forall d q,
     import_module load (package_body d) p = (inr tt, q) ->
     delete "__all__" (globals q) = delete "__all__" (globals p') /\
     submodules q = submodules p').
Proof.
  intros Hp H.
  pose proof (concatenated_entry_only_from_utils load p p') as Hconcat.
  specialize (fun nu => Hconcat nu Hp H).
  unfold import_package, init_py in H.
  assert (forall n, ("packaged_datasets", n) ∈ named_symbols ->
                    exists v, getattr n p' = (inr v, p')) as Hget.
  { intros n Hn.
    destruct (package_named load _ p p' _ n Hp H Hn) as (nsm & nu & _ & _ & [v Hv] & Hg).
    unfold getattr. rewrite Hg, lookup_union, Hv.
    destruct (star_exports nu !! n); by eexists. }
  assert (forall scope q r scope' q' k,
            q = p \/ q = p' -> k ∉ all_names ->
            wildcard_import load init_py scope q = ((r, scope'), q') ->
            scope' !! k = scope !! k) as Hfr.
  { intros scope q r scope' q' k Hq Hk Hw.
    by eapply (wildcard_import_frame load all_display scope p p' q r scope' q' k). }
  split; [|split; [|split; [|split; [|split]]]].
  - apply Hget. apply (bool_decide_unpack _). by vm_compute.
  - apply Hget. apply (bool_decide_unpack _). by vm_compute.
  - intros scope q r scope' q' Hq Hw.
    split; (eapply Hfr; [done| |done]); apply (bool_decide_unpack _); by vm_compute.
  - intros m n Hmn ->.
    assert ("Taiwan_focal_mechanismTaiwan20092010" ∉ named_symbols.*2) as Hn.
    { apply (bool_decide_unpack _). by vm_compute. }
    apply Hn. by apply (list_elem_of_fmap_2 snd _ _ Hmn).
  - exact Hconcat.
  - intros d q (q0 & Hq0 & ->)%package_globals; [|done].
    apply package_globals in H as (q1 & Hq1 & ->); [|done].
    rewrite Hq0 in Hq1. injection Hq1 as <-.
    unfold globals; simpl. by rewrite !delete_insert_eq.
Qed.

Lemma taiwan_names_hidden_from_wildcard_only_witness :
  package fresh = None /\
  import_package sample_load fresh = (inr tt, (import_package sample_load fresh).2) /\
  (exists v, getattr "Taiwan_focal_mechanism" (import_package sample_load fresh).2 =
             (inr v, (import_package sample_load fresh).2)).
Proof.
  split; [reflexivity|]. split; [vm_compute; reflexivity|].
  apply (taiwan_names_hidden_from_wildcard_only sample_load fresh);
    [reflexivity | vm_compute; reflexivity].
Defined.

Example referenced_modules_are :
  referenced_modules = ["base"; "packaged_datasets"; "utils"].
Proof. reflexivity. Qed.

Lemma referenced_modules_resolve load p q m :
  package p = None ->
  import_module load imports p = (inr tt, q) ->
  m ∈ referenced_modules ->
  exists nsm, resolve load p m = inr nsm.
Proof.
  intros Hp Hq Hm.
  destruct (imports_ok load p q Hp Hq) as (nu & g & Hu & _ & _ & Hnamed & _).
  rewrite referenced_modules_are in Hm.
  apply elem_of_cons in Hm as [->|Hm]; [|apply elem_of_cons in Hm as [->|Hm]].
  - destruct (Hnamed "base" "BaseDataset") as (nsm & ? & _); [|by exists nsm].
    apply (bool_decide_unpack _). by vm_compute.
  - destruct (Hnamed "packaged_datasets" "SCSN") as (nsm & ? & _); [|by exists nsm].
    apply (bool_decide_unpack _). by vm_compute.
  - apply list_elem_of_singleton in Hm as ->. by exists nu.
Qed.

(** ** Failure of the import *)

(** C4, as stated, fails: with the sample siblings the entry
    'Taiwan_focal_mechanismTaiwan20092010' of the allow-list is exported by
    none of the three modules, and the package loads all the same. *)
Lemma allow_list_mismatch_loads :
  ~ ((forall n, n ∈ all_names ->
        exists m nsm, m ∈ referenced_modules /\
                      resolve sample_load fresh m = inr nsm /\ is_Some (nsm !! n)) /\
     ((exists n, n ∈ all_names /\
         forall m nsm, m ∈ referenced_modules ->
                       resolve sample_load fresh m = inr nsm -> nsm !! n = None) ->
      exists e, (import_package sample_load fresh).1 = inl e)).
Proof.
  intros [_ H]. destruct H as [e He]; [|by vm_compute in He].
  exists "Taiwan_focal_mechanismTaiwan20092010". split.
  { apply (bool_decide_unpack _). by vm_compute. }
  intros m nsm Hm. rewrite referenced_modules_are in Hm.
  apply elem_of_cons in Hm as [->|Hm]; [|apply elem_of_cons in Hm as [->|Hm]];
    [| |apply list_elem_of_singleton in Hm as ->];
    intros [= <-]; by vm_compute.
Qed.

(** C4, amended: loading the package never consults the allow-list: with
    any display for [__all__] the import succeeds or fails exactly as lines
    1-14 do.  An entry that is neither an attribute of the package nor the
    name of a submodule that can be found is reported when the package is
    wildcard-imported: the loop raises AttributeError for the first such
    entry. *)
Theorem allow_list_checked_at_wildcard_import load d p :
  package p = None ->
  (import_module load (package_body d) p).1 = (import_module load imports p).1 /\
  forall p' before n after scope q,
    import_module load (package_body d) p = (inr tt, p') ->
    q = p \/ q = p' ->
    eval_display d = before ++ n :: after ->
    (forall k, k ∈ before -> is_Some (globals p' !! k)) ->
    globals p' !! n = None ->
    no_stray_submodule load (eval_display d) p' ->
    exists scope',
      wildcard_import load (package_body d) scope q =
        ((Some (AttributeError Package n), scope'), p').
Proof.
  intros Hp. split.
  { rewrite import_module_body by done.
    by destruct (import_module load imports p) as [[e|[]] q]. }
  intros p' before n after scope q H Hq Hd Hbefore Hn Hno.
  rewrite (wildcard_import_imported load _ scope p p' q H Hq).
  rewrite (star_of_package_loop load scope p' _ (package_all load d p p' Hp H) Hno), Hd.
  destruct (import_all_from_first_missing (globals p') before n after scope Hbefore Hn)
    as [Herr _].
  destruct (import_all_from _ _ _) as [r s]. simpl in Herr. subst r. by exists s.
Qed.

Lemma allow_list_checked_at_wildcard_import_witness :
  package fresh = None /\
  (import_module sample_load (package_body all_display) fresh).1 =
    (import_module sample_load imports fresh).1 /\
  exists scope',
    wildcard_import sample_load (package_body all_display) ∅ fresh =
      ((Some (AttributeError Package "Taiwan_focal_mechanismTaiwan20092010"), scope'),
       (import_package sample_load fresh).2).
Proof.
  split; [reflexivity|].
  destruct (allow_list_checked_at_wildcard_import sample_load all_display fresh)
    as [Hload Hstar]; [reflexivity|].
  split; [exact Hload|].
  apply (Hstar (import_package sample_load fresh).2 (take 10 all_names)
           "Taiwan_focal_mechanismTaiwan20092010" [] ∅ fresh).
  - vm_compute; reflexivity.
  - left; reflexivity.
  - reflexivity.
  - intros k Hk.
    assert (Forall (fun k => is_Some (globals (import_package sample_load fresh).2 !! k))
              (take 10 all_names)) as HF.
    { apply (bool_decide_unpack _). vm_compute. exact I. }
    rewrite Forall_forall in HF. exact (HF k Hk).
  - vm_compute; reflexivity.
  - exact sample_no_stray.
Defined.

(** C5: on a first import, if one of [base], [packaged_datasets], [utils]
    fails to load, or a symbol imported by name is missing from its module,
    the import of the package raises; the exception is the one of the
    sibling, or an ImportError naming the module and the missing symbol (or
    the error of the wildcard import from [utils]); the package is not in
    the module cache afterwards, and an importer's wildcard import raises
    the same exception and binds nothing. *)
Theorem import_fails_entirely load p :
  package p = None ->
  (exists m e, m ∈ referenced_modules /\ resolve load p m = inl e) \/
  (exists m n nsm, (m, n) ∈ named_symbols /\
                   resolve load p m = inr nsm /\ nsm !! n = None) ->
  exists e p',
    import_package load p = (inl e, p') /\
    package p' = None /\
    import_failure load p e /\
    forall scope, wildcard_import load init_py scope p = ((Some e, scope), p').
Proof.
  intros Hp Hbad. unfold wildcard_import, import_package, init_py.
  rewrite import_module_body by done.
  destruct (import_module load imports p) as [[e|[]] q] eqn:Hq.
  - destruct (imports_fail load p e q Hp Hq) as [Hnone Hwhy]. by exists e, q.
  - exfalso. destruct Hbad as [(m & e & Hm & He)|(m & n & nsm & Hmn & Hr & Hn)].
    + destruct (referenced_modules_resolve load p q m Hp Hq Hm) as [nsm Hr].
      congruence.
    + destruct (imports_ok load p q Hp Hq) as (nu & g & _ & _ & _ & Hnamed & _).
      destruct (Hnamed m n Hmn) as (nsm' & Hr' & [v Hv] & _).
      congruence.
Qed.

Lemma import_fails_entirely_witness :
  package fresh = None /\
  ("packaged_datasets", "SCSN") ∈ named_symbols /\
  resolve broken_load fresh "packaged_datasets" = inr (delete "SCSN" packaged_ns) /\
  delete "SCSN" packaged_ns !! "SCSN" = None /\
  exists e p',
    import_package broken_load fresh = (inl e, p') /\
    package p' = None /\
    import_failure broken_load fresh e /\
    forall scope, wildcard_import broken_load init_py scope fresh = ((Some e, scope), p').
Proof.
  assert (("packaged_datasets", "SCSN") ∈ named_symbols) as Hin.
  { apply (bool_decide_unpack _). vm_compute. exact I. }
  split; [reflexivity|]. split; [exact Hin|].
  split; [reflexivity|]. split; [vm_compute; reflexivity|].
  apply (import_fails_entirely broken_load fresh); [reflexivity|].
  right. exists "packaged_datasets", "SCSN", (delete "SCSN" packaged_ns).
  split; [exact Hin|]. split; [reflexivity | vm_compute; reflexivity].
Defined.

Example import_without_SCSN :
  import_package broken_load fresh =
    (inl (ImportError (Submodule "packaged_datasets") "SCSN"),
     mkProcess None {[ "base" := base_ns; "packaged_datasets" := delete "SCSN" packaged_ns ]}
               [Package; Submodule "base"; Submodule "packaged_datasets"]).
Proof. vm_compute. reflexivity. Qed.

(** ** Wildcard import of the package *)

(** C6, at the failing input: with the sample siblings a wildcard import of
    the package binds the first ten names of the allow-list in the
    importer's scope and then raises AttributeError for the eleventh,
    'Taiwan_focal_mechanismTaiwan20092010', which stays unbound. *)
Theorem wildcard_import_raises_at_concatenated_entry :
  (wildcard_import sample_load init_py ∅ fresh).1.1 =
    Some (AttributeError Package "Taiwan_focal_mechanismTaiwan20092010") /\
  "Taiwan_focal_mechanismTaiwan20092010" ∈ all_names /\
  (wildcard_import sample_load init_py ∅ fresh).1.2
    !! "Taiwan_focal_mechanismTaiwan20092010" = None /\
  dom (wildcard_import sample_load init_py ∅ fresh).1.2 =
    list_to_set (take 10 all_names).
Proof.
  split; [vm_compute; reflexivity|]. split; [|split; vm_compute; reflexivity].
  apply (bool_decide_unpack _). by vm_compute.
Qed.





(** ** Re-import *)




Example sample_runs :
  runs (import_package sample_load fresh).2 =
    [Package; Submodule "base"; Submodule "packaged_datasets"; Submodule "utils"].
Proof. vm_compute. reflexivity. Qed.

(** ** Names outside the allow-list *)

(** C9: line 5 imports [is_dataset] from [base] and the allow-list does not
    name it: after the package is imported, attribute access to
    [is_dataset] succeeds, and a wildcard import of the package (as first
    import or later) leaves [is_dataset] in the importer's scope as it
    was. *)
Theorem is_dataset_not_wildcard_visible load p p' :
  package p = None ->
  import_package load p = (inr tt, p') ->
  init_py !! 4%nat = Some (FromImport "base" "is_dataset") /\
  ("is_dataset" ∉ all_names) /\
  (exists v, getattr "is_dataset" p' = (inr v, p')) /\
  (forall scope q r scope' q',
     q = p \/ q = p' ->
     wildcard_import load init_py scope q = ((r, scope'), q') ->
     scope' !! "is_dataset" = scope !! "is_dataset").
Proof.
  intros Hp H. unfold import_package, init_py in H.
  assert ("is_dataset" ∉ all_names) as Hnot.
  { apply (bool_decide_unpack _). by vm_compute. }
  split; [reflexivity|]. split; [done|]. split.
  - destruct (package_named load _ p p' "base" "is_dataset" Hp H)
      as (nsm & nu & _ & _ & [v Hv] & Hg).
    { apply (bool_decide_unpack _). by vm_compute. }
    unfold getattr. rewrite Hg, lookup_union, Hv.
    destruct (star_exports nu !! "is_dataset"); by eexists.
  - intros scope q r scope' q' Hq Hw.
    by eapply (wildcard_import_frame load all_display scope p p' q r scope' q').
Qed.

Lemma is_dataset_not_wildcard_visible_witness :
  package fresh = None /\
  import_package sample_load fresh = (inr tt, (import_package sample_load fresh).2) /\
  (exists v, getattr "is_dataset" (import_package sample_load fresh).2 =
             (inr v, (import_package sample_load fresh).2)).
Proof.
  split; [reflexivity|]. split; [vm_compute; reflexivity|].
  apply (is_dataset_not_wildcard_visible sample_load fresh);
    [reflexivity | vm_compute; reflexivity].
Defined.




(** ** The order of the statements *)

Section Order.

Context (load : string -> exn + gmap string value).

Lemma exec_from_import_eq m n p :
  exec_stmt load (FromImport m n) p =
  match import_submodule load m p with
  | (inl e, p1) => (inl e, p1)
  | (inr nsm, p1) =>
      match nsm !! n with
      | Some v => (inr tt, set_globals (<[n := v]> (globals p1)) p1)
      | None => (inl (ImportError (Submodule m) n), p1)
      end
  end.
Proof.
  simpl. unfold bind.
  destruct (import_submodule load m p) as [[e|nsm] p1]; [done|].
  by destruct (nsm !! n).
Qed.

Lemma exec_from_import_star_eq m p :
  exec_stmt load (FromImportStar m) p =
  match import_submodule load m p with
  | (inl e, p1) => (inl e, p1)
  | (inr nsm, p1) =>
      match import_star nsm (globals p1) with
      | (Some err, g) => (inl (star_exn (Submodule m) err), set_globals g p1)
      | (None, g) => (inr tt, set_globals g p1)
      end
  end.
Proof.
  simpl. unfold bind.
  by destruct (import_submodule load m p) as [[e|nsm] p1].
Qed.

Lemma import_submodule_cached m nsm p :
  submodules p !! m = Some nsm ->
  import_submodule load m p = (inr nsm, p).
Proof. intros H. unfold import_submodule. by rewrite H. Qed.

Lemma import_submodule_loads m nsm p :
  submodules p !! m = None -> load m = inr nsm ->
  import_submodule load m p =
    (inr nsm, mkProcess (Some (<[m := Module m]> (globals p)))
                        (<[m := nsm]> (submodules p))
                        (runs p ++ [Submodule m])).
Proof. intros H Hl. unfold import_submodule. by rewrite H, Hl. Qed.

(** A run of named imports succeeds when every sibling loads and has the
    symbol asked of it. *)
Lemma exec_named_succeeds l p :
  (forall m n, (m, n) ∈ l ->
     exists nsm, resolve load p m = inr nsm /\ is_Some (nsm !! n)) ->
  exists p', exec_body load (from_imports l) p = (inr tt, p').
Proof.
  intros Hall.
  destruct (exec_body load (from_imports l) p) as [[e|[]] p'] eqn:H; [|by exists p'].
  apply exec_named_fails in H as (m & n & Hmn & Hwhy).
  destruct (Hall m n Hmn) as (nsm & Hr & [v Hv]).
  destruct Hwhy as [He|(nsm' & Hr' & Hn & _)]; congruence.
Qed.

(** Imports from a sibling that is in the cache run no body and leave the
    cache as it is. *)
Lemma exec_cached_run m nsm ns p p' :
  submodules p !! m = Some nsm ->
  exec_body load (from_imports (pair m <$> ns)) p = (inr tt, p') ->
  submodules p' = submodules p /\ runs p' = runs p /\
  forall k, k ∉ ns -> globals p' !! k = globals p !! k.
Proof.
  revert p. induction ns as [|n ns IH]; intros p Hc.
  { by intros [= <-]. }
  unfold from_imports. rewrite !fmap_cons, exec_body_cons, exec_from_import_eq.
  simpl fst; simpl snd. rewrite (import_submodule_cached _ _ _ Hc).
  destruct (nsm !! n) as [v|]; [|done].
  intros (Hs & Hr & Hg)%IH; [|done]. repeat split; [done..|].
  intros k [Hk Hks]%not_elem_of_cons. rewrite (Hg k Hks).
  unfold globals at 1; simpl. by rewrite lookup_insert_ne.
Qed.

(** Imports from a sibling that is not in the cache load it once, with the
    first of them. *)
Lemma exec_fresh_run m n ns p p' :
  submodules p !! m = None ->
  exec_body load (from_imports (pair m <$> n :: ns)) p = (inr tt, p') ->
  exists nsm, load m = inr nsm /\
    submodules p' = <[m := nsm]> (submodules p) /\
    runs p' = runs p ++ [Submodule m] /\
    forall k, k ∉ n :: ns ->
      globals p' !! k = (<[m := Module m]> (globals p)) !! k.
Proof.
  intros Hc. unfold from_imports.
  rewrite !fmap_cons, exec_body_cons, exec_from_import_eq. simpl fst; simpl snd.
  destruct (load m) as [e|nsm] eqn:Hl.
  { unfold import_submodule. by rewrite Hc, Hl. }
  rewrite (import_submodule_loads _ _ _ Hc Hl).
  destruct (nsm !! n) as [v|]; [|done].
  intros (Hs & Hr & Hg)%(exec_cached_run m nsm); [|simpl; by rewrite lookup_insert_eq].
  exists nsm. repeat split; [done..|].
  intros k [Hk Hks]%not_elem_of_cons. rewrite (Hg k Hks).
  unfold globals at 1; simpl. by rewrite lookup_insert_ne.
Qed.

End Order.

Lemma imports_by_module :
  imports =
    from_imports (pair "base" <$>
      ["BaseDataset"; "Dataset"; "DirDataset"; "FileDataset"; "is_dataset";
       "PathDataset"]) ++
    from_imports (pair "packaged_datasets" <$>
      ["Mariana"; "PackagedDataset"; "SCSN"; "Wenchuan"; "SCSN_polarity";
       "Taiwan_focal_mechanism"; "Taiwan20092010"]) ++
    [FromImportStar "utils"].
Proof. reflexivity. Qed.

(** Lines 1-14 in a process that has none of the three siblings in its
    cache. *)
Lemma imports_fresh load p q :
  package p = None ->
  submodules p !! "base" = None ->
  submodules p !! "packaged_datasets" = None ->
  submodules p !! "utils" = None ->
  import_module load imports p = (inr tt, q) ->
  exists nb np nu g,
    load "base" = inr nb /\ load "packaged_datasets" = inr np /\
    load "utils" = inr nu /\
    submodules q =
      <["utils" := nu]> (<["packaged_datasets" := np]> (<["base" := nb]> (submodules p))) /\
    runs q = runs p ++ [Package; Submodule "base"; Submodule "packaged_datasets";
                        Submodule "utils"] /\
    globals q = star_exports nu ∪ g /\
    g !! "base" = Some (Module "base") /\
    g !! "packaged_datasets" = Some (Module "packaged_datasets") /\
    g !! "utils" = Some (Module "utils").
Proof.
  intros Hp Hb Hd Hu. unfold import_module.
  rewrite Hp, imports_by_module, exec_body_app.
  destruct (exec_body load _ (entered p)) as [[e|[]] p1] eqn:H1; [done|].
  apply exec_fresh_run in H1 as (nb & Hlb & Hs1 & Hr1 & Hg1); [|done].
  rewrite exec_body_app.
  destruct (exec_body load _ p1) as [[e|[]] p2] eqn:H2; [done|].
  apply exec_fresh_run in H2 as (np & Hlp & Hs2 & Hr2 & Hg2);
    [|by rewrite Hs1, lookup_insert_ne].
  rewrite exec_body_cons, exec_from_import_star_eq.
  destruct (load "utils") as [e|nu] eqn:Hlu.
  { unfold import_submodule. rewrite Hs2, Hs1, !lookup_insert_ne by done.
    simpl. by rewrite Hu, Hlu. }
  rewrite (import_submodule_loads load "utils" nu p2);
    [|by rewrite Hs2, Hs1, !lookup_insert_ne|done].
  destruct (import_star nu _) as [[err|] g] eqn:Hst; [done|].
  intros [= <-]. apply import_star_ok in Hst.
  exists nb, np, nu, (<["utils" := Module "utils"]> (globals p2)).
  assert (globals p2 !! "packaged_datasets" = Some (Module "packaged_datasets")) as Hgd.
  { rewrite Hg2 by (apply (bool_decide_unpack _); by vm_compute).
    by rewrite lookup_insert_eq. }
  assert (globals p2 !! "base" = Some (Module "base")) as Hgb.
  { rewrite Hg2 by (apply (bool_decide_unpack _); by vm_compute).
    rewrite lookup_insert_ne by done.
    rewrite Hg1 by (apply (bool_decide_unpack _); by vm_compute).
    by rewrite lookup_insert_eq. }
  repeat split; try done; simpl.
  - by rewrite Hs2, Hs1.
  - rewrite Hr2, Hr1. simpl. by rewrite <- !app_assoc.
  - by rewrite lookup_insert_ne.
  - by rewrite lookup_insert_ne.
  - by rewrite lookup_insert_eq.
Qed.

(** The wildcard import of a module succeeds when the module has no
    [__all__], or has one that is a list of names it has. *)
Lemma import_star_succeeds_iff src :
  (import_star src ∅).1 = None <->
  src !! "__all__" = None \/
  exists names, src !! "__all__" = Some (StrList names) /\
                forall k, k ∈ names -> is_Some (src !! k).
Proof.
  unfold import_star.
  destruct (src !! "__all__") as [[| |names| |]|] eqn:Hall; simpl.
  - split; [done|]. by intros [|(? & ? & _)].
  - split; [done|]. by intros [|(? & ? & _)].
  - split.
    + intros H. right. exists names. split; [done|].
      destruct (import_all_from src names ∅) as [r g] eqn:Hi. simpl in H. subst r.
      by eapply import_all_from_resolves.
    + intros [|(names' & [= <-] & Hres)]; [done|].
      by apply import_all_from_all_resolve.
  - split; [done|]. by intros [|(? & ? & _)].
  - split; [done|]. by intros [|(? & ? & _)].
  - split; [by left | done].
Qed.

(** ** When the import succeeds, and what the package then holds *)

(** X1: a first import of the package succeeds exactly when every module
    named on lines 1-13 loads and has the symbol asked of it, and [utils]
    loads and either has no [__all__] or has one listing only names it
    has. *)
Theorem import_succeeds_iff load p :
  package p = None ->
  (exists p', import_package load p = (inr tt, p')) <->
  (forall m n, (m, n) ∈ named_symbols ->
     exists nsm, resolve load p m = inr nsm /\ is_Some (nsm !! n)) /\
  exists nu, resolve load p "utils" = inr nu /\
    (nu !! "__all__" = None \/
     exists names, nu !! "__all__" = Some (StrList names) /\
                   forall k, k ∈ names -> is_Some (nu !! k)).
Proof.
  intros Hp. unfold import_package, init_py. rewrite import_module_body by done.
  destruct (import_module load imports p) as [[e|[]] q] eqn:Hq; split.
  - by intros [p' ?].
  - intros [Hnamed (nu & Hu & Hstar)]. exfalso.
    apply import_star_succeeds_iff in Hstar.
    destruct (imports_fail load p e q Hp Hq) as [_ [(m & Hm & He)|[H|H]]].
    + rewrite referenced_modules_are in Hm.
      apply elem_of_cons in Hm as [->|Hm]; [|apply elem_of_cons in Hm as [->|Hm]];
        [| |apply list_elem_of_singleton in Hm as ->].
      * destruct (Hnamed "base" "BaseDataset") as (nsm & ? & _); [|congruence].
        apply (bool_decide_unpack _). by vm_compute.
      * destruct (Hnamed "packaged_datasets" "SCSN") as (nsm & ? & _); [|congruence].
        apply (bool_decide_unpack _). by vm_compute.
      * congruence.
    + destruct H as (m & n & nsm & Hmn & Hr & Hn & _).
      destruct (Hnamed m n Hmn) as (nsm' & Hr' & [v Hv]). congruence.
    + destruct H as (nu' & err & Hu' & Herr & _). congruence.
  - intros _. destruct (imports_ok load p q Hp Hq) as (nu & g & Hu & Hst & _ & Hnamed & _).
    split.
    + intros m n Hmn. destruct (Hnamed m n Hmn) as (nsm & ? & ? & _). by exists nsm.
    + exists nu. split; [done|]. by apply import_star_succeeds_iff.
  - intros _. by eexists.
Qed.

Lemma import_succeeds_iff_witness :
  package fresh = None /\
  ((exists p', import_package sample_load fresh = (inr tt, p')) <->
   (forall m n, (m, n) ∈ named_symbols ->
      exists nsm, resolve sample_load fresh m = inr nsm /\ is_Some (nsm !! n)) /\
   exists nu, resolve sample_load fresh "utils" = inr nu /\
     (nu !! "__all__" = None \/
      exists names, nu !! "__all__" = Some (StrList names) /\
                    forall k, k ∈ names -> is_Some (nu !! k))).
Proof.
  split; [reflexivity|].
  apply (import_succeeds_iff sample_load fresh). reflexivity.
Defined.

(** X2: after the import every one of the thirteen symbols imported by name
    is an attribute of the package, and it is the very object its source
    module has under that name, as long as [utils] exports no symbol of the
    same name. *)
Theorem named_symbol_is_source_object load p p' m n nsm nu :
  package p = None ->
  import_package load p = (inr tt, p') ->
  (m, n) ∈ named_symbols ->
  resolve load p m = inr nsm ->
  resolve load p "utils" = inr nu ->
  star_exports nu !! n = None ->
  exists v, nsm !! n = Some v /\ getattr n p' = (inr v, p').
Proof.
  intros Hp H Hmn Hr Hu Hn.
  destruct (package_named load all_display p p' m n Hp H Hmn)
    as (nsm' & nu' & Hr' & Hu' & [v Hv] & Hg).
  rewrite Hr in Hr'. injection Hr' as <-. rewrite Hu in Hu'. injection Hu' as <-.
  exists v. split; [done|]. unfold getattr.
  by rewrite Hg, lookup_union, Hn, Hv.
Qed.

Lemma named_symbol_is_source_object_witness :
  package fresh = None /\
  import_package sample_load fresh = (inr tt, (import_package sample_load fresh).2) /\
  ("base", "is_dataset") ∈ named_symbols /\
  resolve sample_load fresh "base" = inr base_ns /\
  resolve sample_load fresh "utils" = inr utils_ns /\
  star_exports utils_ns !! "is_dataset" = None /\
  exists v, base_ns !! "is_dataset" = Some v /\
            getattr "is_dataset" (import_package sample_load fresh).2 =
              (inr v, (import_package sample_load fresh).2).
Proof.
  assert (("base", "is_dataset") ∈ named_symbols) as Hin.
  { apply (bool_decide_unpack _). vm_compute. exact I. }
  split; [reflexivity|]. split; [vm_compute; reflexivity|].
  split; [exact Hin|]. split; [reflexivity|]. split; [reflexivity|].
  split; [vm_compute; reflexivity|].
  apply (named_symbol_is_source_object sample_load fresh
           (import_package sample_load fresh).2 "base" "is_dataset" base_ns utils_ns);
    [reflexivity | vm_compute; reflexivity | exact Hin | reflexivity | reflexivity
    | vm_compute; reflexivity].
Defined.

(** X3: line 14 runs after lines 1-13, so a symbol that [utils] exports
    under the name of a symbol imported by name replaces it: the attribute
    of the package is the object of [utils]. *)
Theorem utils_export_shadows_named_import load p p' m n nu v :
  package p = None ->
  import_package load p = (inr tt, p') ->
  (m, n) ∈ named_symbols ->
  resolve load p "utils" = inr nu ->
  star_exports nu !! n = Some v ->
  getattr n p' = (inr v, p').
Proof.
  intros Hp H Hmn Hu Hn. unfold getattr.
  rewrite (package_utils load all_display p p' nu n v Hp H Hu Hn); [done|].
  by apply named_symbols_modules in Hmn as (_ & _ & _ & ?).
Qed.

Lemma utils_export_shadows_named_import_witness :
  package fresh = None /\
  import_package (with_utils (<["Dataset" := Obj 99]> utils_ns)) fresh =
    (inr tt, (import_package (with_utils (<["Dataset" := Obj 99]> utils_ns)) fresh).2) /\
  ("base", "Dataset") ∈ named_symbols /\
  base_ns !! "Dataset" = Some (Obj 2) /\
  getattr "Dataset" (import_package (with_utils (<["Dataset" := Obj 99]> utils_ns)) fresh).2 =
    (inr (Obj 99), (import_package (with_utils (<["Dataset" := Obj 99]> utils_ns)) fresh).2).
Proof.
  assert (("base", "Dataset") ∈ named_symbols) as Hin.
  { apply (bool_decide_unpack _). vm_compute. exact I. }
  split; [reflexivity|]. split; [vm_compute; reflexivity|].
  split; [exact Hin|]. split; [vm_compute; reflexivity|].
  apply (utils_export_shadows_named_import
           (with_utils (<["Dataset" := Obj 99]> utils_ns)) fresh _ "base" "Dataset"
           (<["Dataset" := Obj 99]> utils_ns));
    [reflexivity | vm_compute; reflexivity | exact Hin | reflexivity
    | vm_compute; reflexivity].
Defined.





(** X5: in a process that has loaded none of the three siblings, the import
    of the package loads each of them exactly once, although lines 1-13 name
    [base] six times and [packaged_datasets] seven times: afterwards each
    sibling is in the cache with the dictionary its load gave, and the log
    shows its body once more than before. *)
Theorem siblings_loaded_once load p p' m :
  package p = None ->
  submodules p !! "base" = None ->
  submodules p !! "packaged_datasets" = None ->
  submodules p !! "utils" = None ->
  import_package load p = (inr tt, p') ->
  m ∈ referenced_modules ->
  exists nsm,
    load m = inr nsm /\ submodules p' !! m = Some nsm /\
    length (filter (fun x => x = Submodule m) (runs p')) =
      S (length (filter (fun x => x = Submodule m) (runs p))).
Proof.
  intros Hp Hb Hd Hu H Hm.
  apply package_globals in H as (q & Hq & ->); [|done].
  destruct (imports_fresh load p q Hp Hb Hd Hu Hq)
    as (nb & np & nu & g & Hlb & Hlp & Hlu & Hs & Hr & _).
  simpl. rewrite Hs, Hr, filter_app, length_app.
  rewrite referenced_modules_are in Hm.
  apply elem_of_cons in Hm as [->|Hm]; [|apply elem_of_cons in Hm as [->|Hm]];
    [| |apply list_elem_of_singleton in Hm as ->].
  - exists nb. split; [done|].
    split; [by rewrite !(lookup_insert_ne _ _ "base") by done; rewrite lookup_insert_eq|].
    replace (length (filter _ [Package; _; _; _])) with 1 by (vm_compute; reflexivity).
    lia.
  - exists np. split; [done|].
    split; [by rewrite (lookup_insert_ne _ "utils") by done; rewrite lookup_insert_eq|].
    replace (length (filter _ [Package; _; _; _])) with 1 by (vm_compute; reflexivity).
    lia.
  - exists nu. split; [done|]. split; [by rewrite lookup_insert_eq|].
    replace (length (filter _ [Package; _; _; _])) with 1 by (vm_compute; reflexivity).
    lia.
Qed.

Lemma siblings_loaded_once_witness :
  package fresh = None /\
  import_package sample_load fresh = (inr tt, (import_package sample_load fresh).2) /\
  "base" ∈ referenced_modules /\
  exists nsm,
    sample_load "base" = inr nsm /\
    submodules (import_package sample_load fresh).2 !! "base" = Some nsm /\
    length (filter (fun x => x = Submodule "base")
              (runs (import_package sample_load fresh).2)) =
      S (length (filter (fun x => x = Submodule "base") (runs fresh))).
Proof.
  assert ("base" ∈ referenced_modules) as Hin.
  { apply (bool_decide_unpack _). vm_compute. exact I. }
  split; [reflexivity|]. split; [vm_compute; reflexivity|]. split; [exact Hin|].
  apply (siblings_loaded_once sample_load fresh);
    [reflexivity | reflexivity | reflexivity | reflexivity | vm_compute; reflexivity
    | exact Hin].
Defined.

(** X6: in such a process the three sibling modules themselves become
    attributes of the package, [base], [packaged_datasets] and [utils], each
    bound to its module object, unless [utils] exports a symbol of that
    name. *)
Theorem siblings_are_attributes load p p' nu m :
  package p = None ->
  submodules p !! "base" = None ->
  submodules p !! "packaged_datasets" = None ->
  submodules p !! "utils" = None ->
  import_package load p = (inr tt, p') ->
  load "utils" = inr nu ->
  m ∈ referenced_modules ->
  star_exports nu !! m = None ->
  getattr m p' = (inr (Module m), p').
Proof.
  intros Hp Hb Hd Hu H Hlu Hm Hn.
  apply package_globals in H as (q & Hq & ->); [|done].
  destruct (imports_fresh load p q Hp Hb Hd Hu Hq)
    as (nb & np & nu' & g & _ & _ & Hlu' & _ & _ & Hg & Hgb & Hgd & Hgu).
  rewrite Hlu in Hlu'. injection Hlu' as <-.
  assert (g !! m = Some (Module m) /\ m ≠ "__all__") as [Hgm Hne].
  { rewrite referenced_modules_are in Hm.
    apply elem_of_cons in Hm as [->|Hm]; [|apply elem_of_cons in Hm as [->|Hm]];
      [| |apply list_elem_of_singleton in Hm as ->]; done. }
  unfold getattr, globals at 1. simpl.
  by rewrite lookup_insert_ne, Hg, lookup_union, Hn, Hgm.
Qed.

Lemma siblings_are_attributes_witness :
  package fresh = None /\
  import_package sample_load fresh = (inr tt, (import_package sample_load fresh).2) /\
  sample_load "utils" = inr utils_ns /\
  "packaged_datasets" ∈ referenced_modules /\
  star_exports utils_ns !! "packaged_datasets" = None /\
  getattr "packaged_datasets" (import_package sample_load fresh).2 =
    (inr (Module "packaged_datasets"), (import_package sample_load fresh).2).
Proof.
  assert ("packaged_datasets" ∈ referenced_modules) as Hin.
  { apply (bool_decide_unpack _). vm_compute. exact I. }
  split; [reflexivity|]. split; [vm_compute; reflexivity|].
  split; [reflexivity|]. split; [exact Hin|]. split; [vm_compute; reflexivity|].
  apply (siblings_are_attributes sample_load fresh
           (import_package sample_load fresh).2 utils_ns "packaged_datasets");
    [reflexivity | reflexivity | reflexivity | reflexivity | vm_compute; reflexivity
    | reflexivity | exact Hin | vm_compute; reflexivity].
Defined.

(** X7: the statements run in order and the first import that fails
    decides the exception: when every import before a line succeeds and
    that line's module fails to load, or lacks the symbol, the import of the
    package raises that module's exception, or ImportError for that module
    and symbol, and the package is not in the cache afterwards. *)
Theorem first_failing_import_decides load p before m n after e :
  package p = None ->
  named_symbols = before ++ (m, n) :: after ->
  (forall m' n', (m', n') ∈ before ->
     exists nsm, resolve load p m' = inr nsm /\ is_Some (nsm !! n')) ->
  (resolve load p m = inl e \/
   exists nsm, resolve load p m = inr nsm /\ nsm !! n = None /\
               e = ImportError (Submodule m) n) ->
  exists p',
    import_package load p = (inl e, p') /\
    package p' = None.
Proof.
  intros Hp Hsplit Hbefore Hfail.
  unfold import_package, import_module, init_py, package_body. rewrite Hp.
  rewrite imports_split, Hsplit. unfold from_imports.
  rewrite fmap_app, fmap_cons. fold (from_imports before) (from_imports after).
  simpl fst; simpl snd. rewrite <- !app_assoc, exec_body_app.
  destruct (exec_named_succeeds load before (entered p)) as [p1 H1].
  { intros m' n' Hin. rewrite resolve_entered. by apply Hbefore. }
  rewrite H1, <- app_comm_cons, exec_body_cons, exec_from_import_eq.
  pose proof (exec_body_resolve _ _ _ _ _ H1) as [Hres _].
  destruct (import_submodule load m p1) as [r p2] eqn:H2.
  pose proof (import_submodule_spec _ _ _ _ _ H2) as (Hr & _ & _ & _).
  rewrite Hres, resolve_entered in Hr.
  destruct Hfail as [He|(nsm & Hrn & Hn & ->)].
  - rewrite He in Hr. subst r. by eexists.
  - rewrite Hrn in Hr. subst r. rewrite Hn. by eexists.
Qed.

Lemma first_failing_import_decides_witness :
  package fresh = None /\
  named_symbols =
    take 8 named_symbols ++ ("packaged_datasets", "SCSN") :: drop 9 named_symbols /\
  resolve broken_load fresh "packaged_datasets" = inr (delete "SCSN" packaged_ns) /\
  delete "SCSN" packaged_ns !! "SCSN" = None /\
  exists p',
    import_package broken_load fresh =
      (inl (ImportError (Submodule "packaged_datasets") "SCSN"), p') /\
    package p' = None.
Proof.
  split; [reflexivity|]. split; [reflexivity|]. split; [reflexivity|].
  split; [vm_compute; reflexivity|].
  apply (first_failing_import_decides broken_load fresh (take 8 named_symbols)
           "packaged_datasets" "SCSN" (drop 9 named_symbols)).
  - reflexivity.
  - reflexivity.
  - intros m' n' Hin.
    assert (Forall (fun mn => exists nsm, resolve broken_load fresh mn.1 = inr nsm /\
                                          is_Some (nsm !! mn.2))
              (take 8 named_symbols)) as HF.
    { repeat (apply Forall_cons; split;
              [eexists; split; [reflexivity | vm_compute; eexists; reflexivity]|]).
      apply Forall_nil_2. }
    rewrite Forall_forall in HF. exact (HF (m', n') Hin).
  - right. exists (delete "SCSN" packaged_ns).
    split; [reflexivity|]. split; [vm_compute; reflexivity | reflexivity].
Defined.

(** ** The wildcard imports in general *)





(** ** The wildcard import from utils *)




(** X11: when lines 1-13 succeed and the [__all__] of [utils] lists a name
    that [utils] does not have, line 14 raises AttributeError for the first
    such name and the import of the package fails with it; the package is
    not in the cache afterwards. *)
Theorem utils_all_missing_name_fails_import load p nu before n after :
  package p = None ->
  (forall m' n', (m', n') ∈ named_symbols ->
     exists nsm, resolve load p m' = inr nsm /\ is_Some (nsm !! n')) ->
  resolve load p "utils" = inr nu ->
  nu !! "__all__" = Some (StrList (before ++ n :: after)) ->
  (forall k, k ∈ before -> is_Some (nu !! k)) ->
  nu !! n = None ->
  exists p',
    import_package load p = (inl (AttributeError (Submodule "utils") n), p') /\
    package p' = None.
Proof.
  intros Hp Hnamed Hu Hall Hbefore Hn.
  assert ((import_star nu ∅).1 = Some (Missing n)) as Hstar.
  { unfold import_star. rewrite Hall.
    by destruct (import_all_from_first_missing nu before n after ∅ Hbefore Hn). }
  unfold import_package, init_py. rewrite import_module_body by done.
  destruct (import_module load imports p) as [[e|[]] q] eqn:Hq.
  - destruct (imports_fail load p e q Hp Hq) as [Hnone [(m & Hm & He)|[H|H]]].
    + exfalso. rewrite referenced_modules_are in Hm.
      apply elem_of_cons in Hm as [->|Hm]; [|apply elem_of_cons in Hm as [->|Hm]];
        [| |apply list_elem_of_singleton in Hm as ->].
      * destruct (Hnamed "base" "BaseDataset") as (nsm & ? & _); [|congruence].
        apply (bool_decide_unpack _). by vm_compute.
      * destruct (Hnamed "packaged_datasets" "SCSN") as (nsm & ? & _); [|congruence].
        apply (bool_decide_unpack _). by vm_compute.
      * congruence.
    + exfalso. destruct H as (m & n' & nsm & Hmn & Hr & Hn' & _).
      destruct (Hnamed m n' Hmn) as (nsm' & Hr' & [v Hv]). congruence.
    + destruct H as (nu' & err & Hu' & Herr & ->).
      rewrite Hu in Hu'. injection Hu' as <-.
      rewrite Hstar in Herr. injection Herr as <-. by exists q.
  - exfalso. destruct (imports_ok load p q Hp Hq) as (nu' & g & Hu' & Hst & _).
    congruence.
Qed.

Lemma utils_all_missing_name_fails_import_witness :
  package fresh = None /\
  resolve (with_utils (<["__all__" := StrList ["download_url"; "extract_zip"]]> utils_ns))
          fresh "utils" =
    inr (<["__all__" := StrList ["download_url"; "extract_zip"]]> utils_ns) /\
  exists p',
    import_package
      (with_utils (<["__all__" := StrList ["download_url"; "extract_zip"]]> utils_ns))
      fresh =
      (inl (AttributeError (Submodule "utils") "extract_zip"), p') /\
    package p' = None.
Proof.
  split; [reflexivity|]. split; [reflexivity|].
  apply (utils_all_missing_name_fails_import
           (with_utils (<["__all__" := StrList ["download_url"; "extract_zip"]]> utils_ns))
           fresh
           (<["__all__" := StrList ["download_url"; "extract_zip"]]> utils_ns)
           ["download_url"] "extract_zip" []).
  - reflexivity.
  - intros m' n' Hin.
    assert (Forall (fun mn =>
              exists nsm,
                resolve (with_utils
                           (<["__all__" := StrList ["download_url"; "extract_zip"]]> utils_ns))
                        fresh mn.1 = inr nsm /\ is_Some (nsm !! mn.2))
              named_symbols) as HF.
    { repeat (apply Forall_cons; split;
              [eexists; split; [reflexivity | vm_compute; eexists; reflexivity]|]).
      apply Forall_nil_2. }
    rewrite Forall_forall in HF. exact (HF (m', n') Hin).
  - reflexivity.
  - vm_compute; reflexivity.
  - intros k Hk. apply list_elem_of_singleton in Hk. rewrite Hk.
    vm_compute. eexists; reflexivity.
  - vm_compute; reflexivity.
Defined.


